(** * Current.ts: the environment facade of the swift-format extension

    A shallow embedding of [src/Current.ts]: the settings accessors, the
    resolver [swiftFormatPath] with its global fallback
    [fallbackGlobalSwiftFormatPath], and the issue reporter
    [reportIssueForError].

    The host editor (the [vscode] API and node's [fs]) is a record of the
    state the code reads: workspace folders, files, and the configuration
    store.  The functions imported from modules that are not part of the
    file ([join] of node's [path], [absolutePath] of [./AbsolutePath],
    [url] of [./UrlLiteral], [JSON.stringify]) are section variables. *)

From stdpp Require Import base option list gmap strings pretty.

Local Open Scope string_scope.
Local Open Scope Z_scope.

(** ** JavaScript values as the code sees them *)

Module Js.

(** A settings value is whatever the JSON settings file holds.  Numeric
    literals are the integer ones; the code only asks a number for its
    [typeof] and its truthiness. *)
#[warnings="-register-all"] Inductive value : Type :=
| VNull
| VBool (b : bool)
| VNum (n : Z)
| VStr (s : string)
| VArr (elems : list value)
| VObj (props : list (string * value)).

Inductive exn : Type :=
| TypeError.

(** The outcome of running a piece of code: a returned value or a thrown
    exception. *)
Inductive completion (A : Type) : Type :=
| Return (a : A)
| Throw (e : exn).
Arguments Return {A} a.
Arguments Throw {A} e.

Definition bind {A B} (c : completion A) (k : A → completion B)
  : completion B :=
  match c with
  | Return a => k a
  | Throw e => Throw e
  end.

(** ToBoolean, as applied by [if (...)] and [||]. *)
Definition truthy (v : value) : bool :=
  match v with
  | VNull => false
  | VBool b => b
  | VNum n => negb (n =? 0)
  | VStr s => negb (String.eqb s "")
  | VArr _ => true
  | VObj _ => true
  end.

(** [Array.prototype.map] with a callback that may throw: left to right,
    stopping at the first exception. *)
Fixpoint arrayMap {A B} (f : A → completion B) (l : list A)
  : completion (list B) :=
  match l with
  | [] => Return []
  | x :: rest =>
      bind (f x) (λ y, bind (arrayMap f rest) (λ ys, Return (y :: ys)))
  end.

(** [Some rest] when [s] is [pat] followed by [rest]. *)
Fixpoint stripPrefix (pat s : string) : option string :=
  match pat, s with
  | EmptyString, _ => Some s
  | String _ _, EmptyString => None
  | String a pat', String b s' =>
      if Ascii.eqb a b then stripPrefix pat' s' else None
  end.

(** [s.replace(re, rep)] for a regular expression [re] that matches
    exactly the literal text [pat] and has no global flag: only the
    leftmost match is replaced. *)
Fixpoint replaceFirst (pat rep s : string) : string :=
  match stripPrefix pat s with
  | Some rest => rep +:+ rest
  | None =>
      match s with
      | EmptyString => EmptyString
      | String c rest => String c (replaceFirst pat rep rest)
      end
  end.

(** [s.includes(pat)]. *)
Fixpoint includes (pat s : string) : bool :=
  bool_decide (is_Some (stripPrefix pat s)) ||
  match s with
  | EmptyString => false
  | String _ rest => includes pat rest
  end.

End Js.
Import Js.

#[export] Instance completion_ret : MRet completion := @Return.
#[export] Instance completion_bind : MBind completion :=
  λ A B k c, Js.bind c k.

(** ** The host *)

Record Uri := { fsPath : string }.
Record TextDocument := { uri : Uri }.
Record WorkspaceFolder := { folderUri : Uri }.

(** What the code reads from the editor and the filesystem:
    [vscode.workspace.getWorkspaceFolder], [fs.existsSync] and the store
    behind [vscode.workspace.getConfiguration()]. *)
Record Host := {
  getWorkspaceFolder : Uri → option WorkspaceFolder;
  existsSync : string → bool;
  getConfiguration : gmap string value;
}.

Definition withFiles (files : string → bool) (h : Host) : Host :=
  {| getWorkspaceFolder := getWorkspaceFolder h;
     existsSync := files;
     getConfiguration := getConfiguration h |}.

Definition withConfiguration (cfg : gmap string value) (h : Host) : Host :=
  {| getWorkspaceFolder := getWorkspaceFolder h;
     existsSync := existsSync h;
     getConfiguration := cfg |}.

(** [getConfiguration().get(key, defaultValue)]: the stored value, or the
    default when the key holds none. *)
Definition get (h : Host) (key : string) (defaultValue : value) : value :=
  default defaultValue (getConfiguration h !! key).

(** [getConfiguration().update(key, undefined)] removes the key;
    [update(key, v)] stores [v]. *)
Definition update (key : string) (v : option value) (h : Host) : Host :=
  match v with
  | None => withConfiguration (delete key (getConfiguration h)) h
  | Some x => withConfiguration (<[key := x]> (getConfiguration h)) h
  end.

Definition enableKey : string := "apple-swift-format.enable".
Definition onlySwiftPMKey : string :=
  "apple-swift-format.onlyEnableOnSwiftPMProjects".
Definition onlyWithConfigKey : string :=
  "apple-swift-format.onlyEnableWithConfig".
Definition pathKey : string := "apple-swift-format.path".
Definition configSearchPathsKey : string :=
  "apple-swift-format.configSearchPaths".

(** ** The settings accessors and the resolver *)

Section Config.

(** [join] from node's [path]. *)
Variable join : string → string → string.
(** [absolutePath] from [./AbsolutePath], of declared type
    [string => string]. *)
Variable absolutePath : string → string.
(** What [absolutePath] does when the running code hands it a value that
    is not a string. *)
Variable absolutePathIllTyped : value → completion value.

Definition callAbsolutePath (v : value) : completion value :=
  match v with
  | VStr s => Return (VStr (absolutePath s))
  | _ => absolutePathIllTyped v
  end.

Definition isEnabled (h : Host) : value := get h enableKey (VBool true).
Definition onlyEnableOnSwiftPMProjects (h : Host) : value :=
  get h onlySwiftPMKey (VBool false).
Definition onlyEnableWithConfig (h : Host) : value :=
  get h onlyWithConfigKey (VBool false).

Definition defaultPath : list value :=
  [VStr "/usr/bin/env"; VStr "swift-format"].

Definition fallbackGlobalSwiftFormatPath (h : Host)
  : completion (list value) :=
  let path := get h pathKey (VArr defaultPath) in
  match path with
  | VStr s => Return [VStr (absolutePath s)]
  | VArr (first :: rest) =>
      p ← callAbsolutePath first; Return (p :: rest)
  | _ => Return defaultPath
  end.

Definition possibleLocalPaths : list string :=
  [".build/release/swift-format"; ".build/debug/swift-format"].

(** The [for ... of] loop of [swiftFormatPath]: [Some cmd] when an
    iteration returns, [None] when the loop runs to its end. *)
Fixpoint searchLocalPaths (h : Host) (document : TextDocument)
    (paths : list string) : option (list value) :=
  match paths with
  | [] => None
  | path :: rest =>
      match getWorkspaceFolder h (uri document) with
      | None => searchLocalPaths h document rest
      | Some workspace =>
          let fullPath := join (fsPath (folderUri workspace)) path in
          if existsSync h fullPath
          then Some [VStr (absolutePath fullPath)]
          else searchLocalPaths h document rest
      end
  end.

(** The result is [Some cmd] for a command and [None] for [null]. *)
Definition swiftFormatPath (h : Host) (document : TextDocument)
  : completion (option (list value)) :=
  match searchLocalPaths h document possibleLocalPaths with
  | Some cmd => Return (Some cmd)
  | None =>
      if truthy (get h onlySwiftPMKey (VBool false))
      then Return None
      else cmd ← fallbackGlobalSwiftFormatPath h; Return (Some cmd)
  end.

Definition resetSwiftFormatPath (h : Host) : Host :=
  update pathKey None h.

Definition formatConfigSearchPaths (h : Host) : completion (list value) :=
  match get h configSearchPathsKey (VArr [VStr ".swift-format"]) with
  | VArr elems => arrayMap callAbsolutePath elems
  | _ => Throw TypeError
  end.

End Config.

(** ** The editor operations *)

(** A call into the editor, as [vscode.commands.executeCommand] receives
    it; [UriParse s] stands for [vscode.Uri.parse(s)]. *)
Inductive CommandArg : Type :=
| UriParse (s : string).

Inductive HostCall : Type :=
| ExecuteCommand (command : string) (args : list CommandArg).

(** A JavaScript number, as far as a template literal and [||] tell
    numbers apart.  [Zero] is [+0] or [-0].  A finite number other than
    zero is given the way Number::toString takes it: its sign and the
    integers [s] and [n] with [x = s * 10^(n - k)], where [k] is the
    number of decimal digits of [s] and [s] is the shortest digit
    sequence that identifies [x]. *)
Inductive number : Type :=
| NaN
| Zero
| Infinity (negative : bool)
| Finite (negative : bool) (s : positive) (n : Z).

(** ToBoolean on a number: [NaN] and the zeros are falsy. *)
Definition numberTruthy (x : number) : bool :=
  match x with
  | NaN | Zero => false
  | Infinity _ | Finite _ _ _ => true
  end.

Fixpoint zeros (count : nat) : string :=
  match count with
  | O => ""
  | S m => "0" +:+ zeros m
  end.

(** The first [count] characters of [s], and what follows them. *)
Fixpoint takeString (count : nat) (s : string) : string :=
  match count, s with
  | S m, String c rest => String c (takeString m rest)
  | _, _ => ""
  end.

Fixpoint dropString (count : nat) (s : string) : string :=
  match count, s with
  | S m, String _ rest => dropString m rest
  | _, _ => s
  end.

(** Number::toString in radix 10 on a positive finite number: plain
    digits for [n] from [-5] to [21], the exponent form outside. *)
Definition finiteToString (s : positive) (n : Z) : string :=
  let digits := pretty (Npos s) in
  let k := Z.of_nat (String.length digits) in
  if (-5 <=? n) && (n <=? 21) then
    if k <=? n then digits +:+ zeros (Z.to_nat (n - k))
    else if 0 <? n then
      takeString (Z.to_nat n) digits +:+ "."
        +:+ dropString (Z.to_nat n) digits
    else "0." +:+ zeros (Z.to_nat (- n)) +:+ digits
  else
    let e := n - 1 in
    let exponent := (if e <? 0 then "-" else "+") +:+ pretty (Z.abs e) in
    if k =? 1 then digits +:+ "e" +:+ exponent
    else takeString 1 digits +:+ "." +:+ dropString 1 digits
           +:+ "e" +:+ exponent.

(** What a template literal puts for a number. *)
Definition numberToString (x : number) : string :=
  match x with
  | NaN => "NaN"
  | Zero => "0"
  | Infinity negative => (if negative then "-" else "") +:+ "Infinity"
  | Finite negative s n =>
      (if negative then "-" else "") +:+ finiteToString s n
  end.

(** [Partial<Error & { code: number }>]: every field may be missing. *)
Record ErrorLike := {
  name : option string;
  message : option string;
  stack : option string;
  code : option number;
}.

Definition withCode (c : option number) (e : ErrorLike) : ErrorLike :=
  {| name := name e; message := message e; stack := stack e; code := c |}.

Definition withMessage (m : option string) (e : ErrorLike) : ErrorLike :=
  {| name := name e; message := m; stack := stack e; code := code e |}.

(** The [editor] part of the facade that [reportIssueForError] calls back
    into through the module's [Current] object. *)
Record Editor := {
  openURL : string → list HostCall;
}.

Section Editor.

(** The [url] template tag from [./UrlLiteral], applied to the literal
    chunks and the interpolated values. *)
Variable url : list string → list string → string.
(** [JSON.stringify] on an error object. *)
Variable stringify : ErrorLike → string.

Definition prodOpenURL (u : string) : list HostCall :=
  [ExecuteCommand "vscode.open" [UriParse u]].

(** [error.code || ""] inside a template literal. *)
Definition codeOrEmpty (e : ErrorLike) : string :=
  match code e with
  | Some x => if numberTruthy x then numberToString x else ""
  | None => ""
  end.

(** [error.message || ""]. *)
Definition messageOrEmpty (e : ErrorLike) : string :=
  match message e with
  | Some m => if String.eqb m "" then "" else m
  | None => ""
  end.

(** The two characters backslash and [n] that the pattern [/\\n/]
    matches. *)
Definition escapedNewline : string :=
  String (Ascii.ascii_of_nat 92) "n".

Definition reportTitle (e : ErrorLike) : string :=
  replaceFirst escapedNewline " "
    ("Report " +:+ codeOrEmpty e +:+ " " +:+ messageOrEmpty e).

(** [error.stack || JSON.stringify(error)], between backquotes. *)
Definition reportBody (e : ErrorLike) : string :=
  let text :=
    match stack e with
    | Some s => if String.eqb s "" then stringify e else s
    | None => stringify e
    end in
  "`" +:+ text +:+ "`".

Definition issueChunks : list string :=
  ["https://github.com/vknabel/vscode-apple-swift-format/issues/new?title=";
   "&body="; ""].

Definition reportIssueForError (Current : Editor) (e : ErrorLike)
  : list HostCall :=
  let title := reportTitle e in
  let body := reportBody e in
  openURL Current (url issueChunks [title; body]).

Definition prodEditor : Editor := {| openURL := prodOpenURL |}.

End Editor.

(** ** A sample host

    A concrete workspace, filesystem and set of imported functions on
    which the statements below are exercised. *)

Definition sampleJoin (a b : string) : string := a +:+ "/" +:+ b.

(** Paths starting with a slash are kept, the others are put under
    [/cwd]. *)
Definition sampleAbsolutePath (s : string) : string :=
  if String.prefix "/" s then s else "/cwd/" +:+ s.

Definition sampleIllTyped (v : value) : completion value := Throw TypeError.

Definition sampleDocument : TextDocument :=
  {| uri := {| fsPath := "/proj/Sources/main.swift" |} |}.

Definition sampleFolder : WorkspaceFolder :=
  {| folderUri := {| fsPath := "/proj" |} |}.

Definition sampleHost (folder : option WorkspaceFolder)
    (files : list string) (cfg : gmap string value) : Host :=
  {| getWorkspaceFolder := λ _, folder;
     existsSync := λ p, existsb (String.eqb p) files;
     getConfiguration := cfg |}.

Definition releaseFile : string := "/proj/.build/release/swift-format".
Definition debugFile : string := "/proj/.build/debug/swift-format".

Definition noWorkspaceHost (cfg : gmap string value) : Host :=
  sampleHost None [releaseFile; debugFile] cfg.

Definition bothBuildsHost : Host :=
  sampleHost (Some sampleFolder) [releaseFile; debugFile] ∅.

Definition debugOnlyHost : Host :=
  sampleHost (Some sampleFolder) [debugFile] ∅.

Definition noBuildHost (cfg : gmap string value) : Host :=
  sampleHost (Some sampleFolder) ["/proj/Package.swift"] cfg.

Definition storedPathHost (path : value) : Host :=
  sampleHost None [] {[ pathKey := path ]}.

Definition mixedPath : value := VArr [VStr "swift-format"; VNum 42].

(** The error of a failed run: code [1], the number with digits [1] and
    [n = 1]. *)
Definition sampleError : ErrorLike :=
  {| name := Some "Error"; message := Some "a\nb\nc";
     stack := Some "trace"; code := Some (Finite false 1 1) |}.

Definition emptyMessageError : ErrorLike :=
  {| name := Some "Error"; message := Some ""; stack := None;
     code := Some (Finite false 1 1) |}.

Definition falsyError : ErrorLike :=
  {| name := Some "Error"; message := Some ""; stack := None;
     code := Some Zero |}.

(** ** Notions used to state what the code does *)

(** The number of places of [s] at which the literal text [pat] starts:
    the number of matches of the global form of the pattern when, as for
    [escapedNewline], two matches cannot overlap. *)
Fixpoint countMatches (pat s : string) : nat :=
  (match stripPrefix pat s with Some _ => 1 | None => 0 end
   + match s with
     | EmptyString => 0
     | String _ rest => countMatches pat rest
     end)%nat.

(** No character of [s] is [c]. *)
Fixpoint lacksChar (c : Ascii.ascii) (s : string) : bool :=
  match s with
  | EmptyString => true
  | String a rest => negb (Ascii.eqb a c) && lacksChar c rest
  end.

(** Whether the document lies in a workspace folder under whose root one
    of the two candidates of [possibleLocalPaths] exists. *)
Definition hasLocalBuild (join : string → string → string) (h : Host)
    (document : TextDocument) : bool :=
  match getWorkspaceFolder h (uri document) with
  | None => false
  | Some workspace =>
      existsSync h (join (fsPath (folderUri workspace))
                      ".build/release/swift-format")
      || existsSync h (join (fsPath (folderUri workspace))
                         ".build/debug/swift-format")
  end.

(** The first character of [escapedNewline]. *)
Definition backslash : Ascii.ascii := Eval cbv in Ascii.ascii_of_nat 92.

(** A serializer for the sample errors. *)
Definition sampleStringify (e : ErrorLike) : string :=
  "{" +:+ codeOrEmpty e +:+ "}".

(** More sample hosts: a restriction stored as a string, a [path] that
    starts with a number, and search paths of several shapes. *)
Definition restrictedHost (setting : value) : Host :=
  noBuildHost {[ onlySwiftPMKey := setting ]}.

Definition numberFirstPath : value := VArr [VNum 1; VStr "--strict"].

Definition searchPathsHost (stored : value) : Host :=
  sampleHost None [] {[ configSearchPathsKey := stored ]}.

Definition shadowedSettings : gmap string value :=
  {[ onlySwiftPMKey := VBool true; pathKey := numberFirstPath ]}.

(** Whether a value is a string, as [typeof v === "string"]. *)
Definition isString (v : value) : bool :=
  match v with
  | VStr _ => true
  | _ => false
  end.

(** ** The resolver *)

Section ResolverFacts.

Variable join : string → string → string.
Variable absolutePath : string → string.
Variable absolutePathIllTyped : value → completion value.

Abbreviation searchLocalPaths := (searchLocalPaths join absolutePath).
Abbreviation swiftFormatPath :=
  (swiftFormatPath join absolutePath absolutePathIllTyped).
Abbreviation fallbackGlobalSwiftFormatPath :=
  (fallbackGlobalSwiftFormatPath absolutePath absolutePathIllTyped).

(** The loop only reads the workspace folder and the filesystem. *)
Lemma searchLocalPaths_ext (h h' : Host) (document : TextDocument)
    (paths : list string) :
  getWorkspaceFolder h = getWorkspaceFolder h' →
  existsSync h = existsSync h' →
  searchLocalPaths h document paths = searchLocalPaths h' document paths.
Proof.
  intros Hws Hfs. induction paths as [|path rest IH]; simpl; [done|].
  rewrite <- Hws, <- Hfs, IH. done.
Qed.

(** Without a workspace folder every iteration hits [continue]. *)
Lemma searchLocalPaths_no_workspace (h : Host) (document : TextDocument)
    (paths : list string) :
  getWorkspaceFolder h (uri document) = None →
  searchLocalPaths h document paths = None.
Proof.
  intros Hws. induction paths as [|path rest IH]; simpl; [done|].
  by rewrite Hws.
Qed.

(** Whatever the loop returns has exactly one element. *)
Lemma searchLocalPaths_single (h : Host) (document : TextDocument)
    (paths : list string) (cmd : list value) :
  searchLocalPaths h document paths = Some cmd → length cmd = 1%nat.
Proof.
  induction paths as [|path rest IH]; simpl; [done|].
  destruct (getWorkspaceFolder h (uri document)) as [workspace|]; [|done].
  destruct (existsSync h _); [|done].
  by intros [= <-].
Qed.

Lemma fallback_nonempty (h : Host) (cmd : list value) :
  fallbackGlobalSwiftFormatPath h = Return cmd → cmd ≠ [].
Proof.
  unfold fallbackGlobalSwiftFormatPath.
  destruct (get h pathKey (VArr defaultPath)) as [| | | |[|first rest]|];
    try (by intros [= <-]).
  destruct (callAbsolutePath absolutePath absolutePathIllTyped first);
    simpl; [|done].
  by intros [= <-].
Qed.

Lemma get_update_ne (h : Host) (k k' : string) (v : option value)
    (d : value) :
  k ≠ k' → get (update k v h) k' d = get h k' d.
Proof.
  intros Hne. unfold get.
  destruct v; simpl; by rewrite ?lookup_insert_ne, ?lookup_delete_ne.
Qed.

(** C1: when the document has a workspace folder and both
    [.build/release/swift-format] and [.build/debug/swift-format] exist
    under its root, [swiftFormatPath] returns the one-element command
    made of the release candidate (the joined path, passed through
    [absolutePath]) and not the one made of the debug candidate; when
    only the debug candidate exists, it returns the one-element command
    made of the debug candidate. *)
Theorem swiftFormatPath_local_build (h : Host) (document : TextDocument)
    (workspace : WorkspaceFolder) :
  getWorkspaceFolder h (uri document) = Some workspace →
  let root := fsPath (folderUri workspace) in
  let release := join root ".build/release/swift-format" in
  let debug := join root ".build/debug/swift-format" in
  (existsSync h release = true → existsSync h debug = true →
     swiftFormatPath h document
       = Return (Some [VStr (absolutePath release)])
     ∧ (absolutePath release ≠ absolutePath debug →
        swiftFormatPath h document
          ≠ Return (Some [VStr (absolutePath debug)])))
  ∧ (existsSync h release = false → existsSync h debug = true →
     swiftFormatPath h document
       = Return (Some [VStr (absolutePath debug)])).
Proof.
  intros Hws root release debug. split.
  - intros Hrel _.
    assert (swiftFormatPath h document
              = Return (Some [VStr (absolutePath release)])) as Heq.
    { unfold swiftFormatPath; simpl.
      rewrite Hws. fold root. fold release. by rewrite Hrel. }
    split; [done|]. rewrite Heq. congruence.
  - intros Hrel Hdbg.
    unfold swiftFormatPath; simpl.
    rewrite Hws. fold root. fold release. rewrite Hrel.
    fold debug. by rewrite Hdbg.
Qed.

(** C2: when no local build is found (no workspace folder, or neither
    candidate exists under its root) and the
    [onlyEnableOnSwiftPMProjects] setting is [true], [swiftFormatPath]
    returns [null], whatever the [path] setting holds, set or unset. *)
Theorem swiftFormatPath_only_swiftpm (h : Host) (document : TextDocument) :
  (getWorkspaceFolder h (uri document) = None
   ∨ ∃ workspace,
       getWorkspaceFolder h (uri document) = Some workspace
       ∧ existsSync h (join (fsPath (folderUri workspace))
                         ".build/release/swift-format") = false
       ∧ existsSync h (join (fsPath (folderUri workspace))
                         ".build/debug/swift-format") = false) →
  getConfiguration h !! onlySwiftPMKey = Some (VBool true) →
  swiftFormatPath h document = Return None
  ∧ ∀ path : option value,
      swiftFormatPath (update pathKey path h) document = Return None.
Proof.
  intros Hlocal Honly.
  assert (searchLocalPaths h document possibleLocalPaths = None) as Hnone.
  { destruct Hlocal as [Hws|(workspace & Hws & Hrel & Hdbg)].
    - by apply searchLocalPaths_no_workspace.
    - simpl. by rewrite Hws, Hrel, Hdbg. }
  assert (get h onlySwiftPMKey (VBool false) = VBool true) as Hget.
  { unfold get. by rewrite Honly. }
  split.
  - unfold swiftFormatPath. by rewrite Hnone, Hget.
  - intros path. unfold swiftFormatPath.
    rewrite (searchLocalPaths_ext (update pathKey path h) h)
      by (by destruct path).
    rewrite Hnone, get_update_ne by done. by rewrite Hget.
Qed.

(** C3: for a document with no workspace folder the filesystem is never
    consulted; [swiftFormatPath] returns the global-fallback resolution,
    and not [null], when [onlyEnableOnSwiftPMProjects] is [false], and
    [null] when it is [true]. *)
Theorem swiftFormatPath_no_workspace (h : Host) (document : TextDocument) :
  getWorkspaceFolder h (uri document) = None →
  (∀ files : string → bool,
     swiftFormatPath (withFiles files h) document
       = swiftFormatPath h document)
  ∧ (onlyEnableOnSwiftPMProjects h = VBool false →
     swiftFormatPath h document
       = (cmd ← fallbackGlobalSwiftFormatPath h; Return (Some cmd))
     ∧ swiftFormatPath h document ≠ Return None)
  ∧ (onlyEnableOnSwiftPMProjects h = VBool true →
     swiftFormatPath h document = Return None).
Proof.
  intros Hws. unfold onlyEnableOnSwiftPMProjects.
  split; [|split].
  - intros files. unfold swiftFormatPath.
    by rewrite !searchLocalPaths_no_workspace.
  - intros Honly. unfold swiftFormatPath.
    rewrite searchLocalPaths_no_workspace, Honly by done. simpl.
    split; [done|].
    by destruct (fallbackGlobalSwiftFormatPath h).
  - intros Honly. unfold swiftFormatPath.
    by rewrite searchLocalPaths_no_workspace, Honly.
Qed.

(** C6: whenever [swiftFormatPath] returns a command rather than
    [null], the command has at least one element. *)
Theorem swiftFormatPath_nonempty (h : Host) (document : TextDocument)
    (cmd : list value) :
  swiftFormatPath h document = Return (Some cmd) → (1 ≤ length cmd)%nat.
Proof.
  unfold swiftFormatPath.
  destruct (searchLocalPaths h document possibleLocalPaths)
    as [local|] eqn:Hlocal.
  - intros [= <-]. by rewrite (searchLocalPaths_single _ _ _ _ Hlocal).
  - destruct (truthy _); [done|].
    destruct (fallbackGlobalSwiftFormatPath h) as [global|] eqn:Hglobal;
      simpl; [|done].
    intros [= <-]. apply fallback_nonempty in Hglobal.
    destruct global; simpl; [done|lia].
Qed.

End ResolverFacts.

(** ** The settings accessors *)

Section SettingsFacts.

Variable absolutePath : string → string.
Variable absolutePathIllTyped : value → completion value.

Abbreviation fallbackGlobalSwiftFormatPath :=
  (fallbackGlobalSwiftFormatPath absolutePath absolutePathIllTyped).
Abbreviation formatConfigSearchPaths :=
  (formatConfigSearchPaths absolutePath absolutePathIllTyped).
Abbreviation callAbsolutePath :=
  (callAbsolutePath absolutePath absolutePathIllTyped).

Lemma get_stored (h : Host) (key : string) (v d : value) :
  getConfiguration h !! key = Some v → get h key d = v.
Proof. intros Hv. unfold get. by rewrite Hv. Qed.

Lemma get_unset (h : Host) (key : string) (d : value) :
  getConfiguration h !! key = None → get h key d = d.
Proof. intros Hv. unfold get. by rewrite Hv. Qed.

(** With the key unset, the default array takes the array branch. *)
Lemma fallback_unset (h : Host) :
  getConfiguration h !! pathKey = None →
  fallbackGlobalSwiftFormatPath h
    = Return [VStr (absolutePath "/usr/bin/env"); VStr "swift-format"].
Proof.
  intros Hv. unfold fallbackGlobalSwiftFormatPath.
  by rewrite (get_unset _ _ _ Hv).
Qed.

(** Mapping the normalizer over strings never throws. *)
Lemma arrayMap_strings (paths : list string) :
  arrayMap callAbsolutePath (VStr <$> paths)
    = Return (VStr <$> (absolutePath <$> paths)).
Proof.
  induction paths as [|path rest IH]; [done|].
  rewrite !fmap_cons. cbn [arrayMap Js.bind callAbsolutePath].
  by rewrite IH.
Qed.

(** A non-empty sequence that starts with a string keeps its tail, for
    every normalizer; a tail holding a number is then never the default
    tail. *)
Lemma fallback_keeps_tail (h : Host) (first : string) (n : Z) :
  getConfiguration h !! pathKey = Some (VArr [VStr first; VNum n]) →
  fallbackGlobalSwiftFormatPath h ≠ Return defaultPath.
Proof.
  intros Hv. unfold fallbackGlobalSwiftFormatPath.
  by rewrite (get_stored _ _ _ _ Hv).
Qed.

(** C4: in the global fallback, a stored [path] that is a single string
    gives the one-element command holding that string passed through
    [absolutePath]; a stored non-empty sequence of strings gives its
    first element passed through [absolutePath] followed by the
    remaining elements as they are. *)
Theorem fallback_string_or_strings (h : Host) :
  (∀ s : string,
     getConfiguration h !! pathKey = Some (VStr s) →
     fallbackGlobalSwiftFormatPath h = Return [VStr (absolutePath s)])
  ∧ (∀ (first : string) (rest : list string),
       getConfiguration h !! pathKey
         = Some (VArr (VStr <$> first :: rest)) →
       fallbackGlobalSwiftFormatPath h
         = Return (VStr (absolutePath first) :: (VStr <$> rest))).
Proof.
  split.
  - intros s Hs. unfold fallbackGlobalSwiftFormatPath.
    by rewrite (get_stored _ _ _ _ Hs).
  - intros first rest Hs. unfold fallbackGlobalSwiftFormatPath.
    by rewrite (get_stored _ _ _ _ Hs).
Qed.

(** C5, as the code has it: a stored [path] that is an empty sequence,
    or that is neither a string nor a sequence ([null], a boolean, a
    number, an object), gives exactly the default
    [["/usr/bin/env"; "swift-format"]], not normalized.  A non-empty
    sequence does not take that branch, whatever its elements are: its
    first element is handed to [absolutePath] and the result is what
    [absolutePath] gives for it followed by the remaining elements as
    they are.  For a first element that is a string this is the string
    passed through [absolutePath]; for one that is not, it is whatever
    [absolutePath] returns for it, or the exception it throws. *)
Theorem fallback_default_shapes (h : Host) (v : value) :
  getConfiguration h !! pathKey = Some v →
  (v = VArr [] ∨ v = VNull ∨ (∃ b, v = VBool b) ∨ (∃ n, v = VNum n)
     ∨ (∃ props, v = VObj props) →
   fallbackGlobalSwiftFormatPath h
     = Return [VStr "/usr/bin/env"; VStr "swift-format"])
  ∧ (∀ (first : value) (rest : list value),
       v = VArr (first :: rest) →
       (∀ s : string,
          first = VStr s →
          fallbackGlobalSwiftFormatPath h
            = Return (VStr (absolutePath s) :: rest))
       ∧ (isString first = false →
          fallbackGlobalSwiftFormatPath h
            = (p ← absolutePathIllTyped first; Return (p :: rest)))
       ∧ (∀ cmd : list value,
            fallbackGlobalSwiftFormatPath h = Return cmd →
            tail cmd = rest ∧ length cmd = S (length rest))).
Proof.
  intros Hv. unfold fallbackGlobalSwiftFormatPath.
  rewrite (get_stored _ _ _ _ Hv). split.
  - intros [->|[->|[[b ->]|[[n ->]|[props ->]]]]]; done.
  - intros first rest ->. split; [|split].
    + by intros s ->.
    + intros Hfirst. by destruct first.
    + intros cmd.
      destruct (callAbsolutePath first) as [p|]; simpl; [|done].
      by intros [= <-].
Qed.

(** C7: after [resetSwiftFormatPath] a read of [path] falls through to
    its default, and the global fallback gives what it gives on any
    host whose store has no [path] key. *)
Theorem reset_then_fallback (h : Host) :
  get (resetSwiftFormatPath h) pathKey (VArr defaultPath)
    = VArr [VStr "/usr/bin/env"; VStr "swift-format"]
  ∧ ∀ unset : Host,
      getConfiguration unset !! pathKey = None →
      fallbackGlobalSwiftFormatPath (resetSwiftFormatPath h)
        = fallbackGlobalSwiftFormatPath unset.
Proof.
  assert (getConfiguration (resetSwiftFormatPath h) !! pathKey = None)
    as Hreset by apply lookup_delete_eq.
  split.
  - by rewrite (get_unset _ _ _ Hreset).
  - intros unset Hunset. by rewrite !fallback_unset.
Qed.

(** C8: [formatConfigSearchPaths] returns the stored sequence of
    strings with [absolutePath] applied to every element, in the stored
    order; with nothing stored it returns the one-element sequence
    holding [absolutePath ".swift-format"]. *)
Theorem formatConfigSearchPaths_normalized (h : Host) :
  (∀ paths : list string,
     getConfiguration h !! configSearchPathsKey
       = Some (VArr (VStr <$> paths)) →
     ∃ result : list value,
       formatConfigSearchPaths h = Return result
       ∧ result = VStr <$> (absolutePath <$> paths)
       ∧ ∀ i : nat,
           result !! i = (λ path, VStr (absolutePath path)) <$> paths !! i)
  ∧ (getConfiguration h !! configSearchPathsKey = None →
     formatConfigSearchPaths h
       = Return [VStr (absolutePath ".swift-format")]).
Proof.
  split.
  - intros paths Hs. exists (VStr <$> (absolutePath <$> paths)).
    unfold formatConfigSearchPaths.
    rewrite (get_stored _ _ _ _ Hs). split; [|split].
    + apply arrayMap_strings.
    + done.
    + intros i. rewrite !list_lookup_fmap. by destruct (paths !! i).
  - intros Hs. unfold formatConfigSearchPaths.
    by rewrite (get_unset _ _ _ Hs).
Qed.

End SettingsFacts.

(** ** Replacing and counting matches *)

(** Replacing the leftmost match of a two-character pattern [a b] by one
    character [r], where [a], [b] and [r] are three different
    characters. *)
Section TwoCharacterPattern.

Variables a b r : Ascii.ascii.
Hypothesis a_not_b : a ≠ b.
Hypothesis r_not_a : r ≠ a.
Hypothesis r_not_b : r ≠ b.

Abbreviation pat := (String a (String b EmptyString)).
Abbreviation rep := (String r EmptyString).

(** A text that does not start with [b] does not start with [b] after
    the replacement either. *)
Lemma replaceFirst_head (s : string) :
  stripPrefix (String b EmptyString) s = None →
  stripPrefix (String b EmptyString) (replaceFirst pat rep s) = None.
Proof.
  destruct s as [|c s']; [done|].
  cbn [replaceFirst]. intros Hc.
  destruct (stripPrefix pat (String c s')) as [rest|]; simpl in *.
  - by destruct (Ascii.eqb_spec b r).
  - by destruct (Ascii.eqb_spec b c).
Qed.

(** The replacement removes one match and creates none. *)
Lemma replaceFirst_countMatches (s : string) :
  countMatches pat (replaceFirst pat rep s) = pred (countMatches pat s).
Proof.
  induction s as [|c s' IH]; [done|].
  cbn [replaceFirst countMatches].
  destruct (stripPrefix pat (String c s')) as [rest|] eqn:Hmatch.
  - simpl in Hmatch.
    destruct (Ascii.eqb_spec a c) as [<-|]; [|done].
    destruct s' as [|d s'']; [done|]. simpl in Hmatch.
    destruct (Ascii.eqb_spec b d) as [<-|]; [|done].
    injection Hmatch as ->. simpl.
    destruct (Ascii.eqb_spec a r); [congruence|].
    by destruct (Ascii.eqb_spec a b).
  - cbn [countMatches]. rewrite IH.
    assert (stripPrefix pat (String c (replaceFirst pat rep s')) = None)
      as ->; [|done].
    simpl in *. destruct (Ascii.eqb_spec a c); [|done].
    by apply replaceFirst_head.
Qed.

(** No match starts in a text without [a]. *)
Lemma countMatches_lacksChar (x y : string) :
  lacksChar a x = true →
  countMatches pat (x +:+ y) = countMatches pat y.
Proof.
  induction x as [|c x' IH]; [done|].
  cbn [lacksChar]. intros [Hc Hx']%andb_true_iff.
  change (String c x' +:+ y) with (String c (x' +:+ y)).
  cbn [countMatches]. rewrite (IH Hx'). simpl.
  destruct (Ascii.eqb_spec a c) as [<-|]; [|done].
  by rewrite Ascii.eqb_refl in Hc.
Qed.

(** The replacement skips a text without [a]. *)
Lemma replaceFirst_lacksChar (x y : string) :
  lacksChar a x = true →
  replaceFirst pat rep (x +:+ y) = x +:+ replaceFirst pat rep y.
Proof.
  induction x as [|c x' IH]; [done|].
  cbn [lacksChar]. intros [Hc Hx']%andb_true_iff.
  change (String c x' +:+ y) with (String c (x' +:+ y)).
  cbn [replaceFirst]. rewrite (IH Hx').
  assert (stripPrefix pat (String c (x' +:+ y)) = None) as ->; [|done].
  simpl. destruct (Ascii.eqb_spec a c) as [<-|]; [|done].
  by rewrite Ascii.eqb_refl in Hc.
Qed.

End TwoCharacterPattern.

Lemma includes_countMatches (pat s : string) :
  includes pat s = true ↔ (0 < countMatches pat s)%nat.
Proof.
  induction s as [|c s' IH]; cbn [includes countMatches].
  - destruct (stripPrefix pat "") as [rest|].
    + rewrite bool_decide_eq_true_2 by (by eexists). simpl. lia.
    + rewrite bool_decide_eq_false_2 by (by intros [? ?]). simpl. lia.
  - destruct (stripPrefix pat (String c s')) as [rest|].
    + rewrite bool_decide_eq_true_2 by (by eexists). simpl. lia.
    + rewrite bool_decide_eq_false_2 by (by intros [? ?]). simpl.
      rewrite IH. lia.
Qed.

(** Decimal digits hold no backslash. *)
Lemma lacksChar_pretty_N_go (x : N) (s : string) :
  lacksChar backslash s = true →
  lacksChar backslash (pretty_N_go x s) = true.
Proof.
  revert s. induction (N.lt_wf_0 x) as [x _ IH]; intros s Hs.
  destruct (decide (0 < x)%N) as [Hpos|Hzero].
  - rewrite pretty_N_go_step by done. apply IH.
    + apply N.div_lt; lia.
    + cbn [lacksChar]. rewrite Hs. unfold pretty_N_char.
      by repeat case_match.
  - assert (x = 0%N) as -> by lia. by rewrite pretty_N_go_0.
Qed.

Lemma lacksChar_pretty_N (x : N) : lacksChar backslash (pretty x) = true.
Proof.
  unfold pretty, pretty_N. case_decide; [done|].
  by apply lacksChar_pretty_N_go.
Qed.

Lemma lacksChar_pretty_Z (z : Z) : lacksChar backslash (pretty z) = true.
Proof.
  destruct z as [|p|p]; [done| |].
  - apply (lacksChar_pretty_N (N.pos p)).
  - change (pretty (Z.neg p)) with ("-" +:+ pretty (N.pos p)).
    cbn [String.append lacksChar]. apply (lacksChar_pretty_N (N.pos p)).
Qed.

Lemma lacksChar_app (c : Ascii.ascii) (x y : string) :
  lacksChar c (x +:+ y) = lacksChar c x && lacksChar c y.
Proof.
  induction x as [|d x' IH]; [done|].
  change (String d x' +:+ y) with (String d (x' +:+ y)).
  cbn [lacksChar]. by rewrite IH, andb_assoc.
Qed.

Lemma lacksChar_zeros (count : nat) : lacksChar backslash (zeros count) = true.
Proof. induction count as [|m IH]; [done|]. simpl. exact IH. Qed.

Lemma lacksChar_takeString (c : Ascii.ascii) (count : nat) (s : string) :
  lacksChar c s = true → lacksChar c (takeString count s) = true.
Proof.
  revert s. induction count as [|m IH]; intros [|d rest]; try done.
  cbn [lacksChar takeString]. intros [Hd Hrest]%andb_true_iff.
  by rewrite Hd, (IH rest Hrest).
Qed.

Lemma lacksChar_dropString (c : Ascii.ascii) (count : nat) (s : string) :
  lacksChar c s = true → lacksChar c (dropString count s) = true.
Proof.
  revert s. induction count as [|m IH]; intros [|d rest]; try done.
  cbn [lacksChar dropString]. intros [_ Hrest]%andb_true_iff.
  by apply IH.
Qed.

(** No rendering of a number holds a backslash. *)
Lemma lacksChar_numberToString (x : number) :
  lacksChar backslash (numberToString x) = true.
Proof.
  assert (∀ s n, lacksChar backslash (finiteToString s n) = true) as Hfinite.
  { intros s n. unfold finiteToString.
    pose proof (lacksChar_pretty_N (N.pos s)) as Hdigits.
    pose proof (lacksChar_pretty_Z (Z.abs (n - 1))) as Hexponent.
    pose proof (λ count, lacksChar_takeString backslash count _ Hdigits)
      as Htake.
    pose proof (λ count, lacksChar_dropString backslash count _ Hdigits)
      as Hdrop.
    destruct ((-5 <=? n) && (n <=? 21)).
    - destruct (_ <=? n); [|destruct (0 <? n)];
        rewrite !lacksChar_app, ?lacksChar_zeros, ?Htake, ?Hdrop, ?Hdigits;
        done.
    - destruct (_ =? 1); destruct (n - 1 <? 0);
        rewrite !lacksChar_app, ?Htake, ?Hdrop, ?Hdigits, ?Hexponent;
        done. }
  destruct x as [| |negative|negative s n]; [done|done| |].
  - by destruct negative.
  - unfold numberToString. rewrite lacksChar_app, Hfinite.
    by destruct negative.
Qed.

Lemma lacksChar_codeOrEmpty (e : ErrorLike) :
  lacksChar backslash (codeOrEmpty e) = true.
Proof.
  unfold codeOrEmpty. destruct (code e) as [x|]; [|done].
  destruct (numberTruthy x); [|done]. apply lacksChar_numberToString.
Qed.

(** ** The issue reporter *)

Section EditorFacts.

Variable url : list string → list string → string.
Variable stringify : ErrorLike → string.

Abbreviation reportBody := (reportBody stringify).
Abbreviation reportIssueForError := (reportIssueForError url stringify).

(** A text without a match is left as it is. *)
Lemma replaceFirst_absent (pat rep s : string) :
  includes pat s = false → replaceFirst pat rep s = s.
Proof.
  induction s as [|c rest IH]; simpl.
  - destruct (stripPrefix pat "") eqn:Hp; [|done].
    rewrite bool_decide_eq_true_2; [done|by eexists].
  - destruct (stripPrefix pat (String c rest)) eqn:Hp.
    + rewrite bool_decide_eq_true_2; [done|by eexists].
    + rewrite bool_decide_eq_false_2 by (by intros [? ?]). simpl.
      intros Hrest. by rewrite IH.
Qed.

(** The body holds the stack when there is a non-empty one, and the
    serialized error otherwise. *)
Lemma reportBody_stack (e : ErrorLike) (s : string) :
  stack e = Some s → s ≠ "" → reportBody e = "`" +:+ s +:+ "`".
Proof.
  intros Hs Hne. unfold reportBody. rewrite Hs.
  by destruct (String.eqb_spec s "").
Qed.

Lemma reportBody_no_stack (e : ErrorLike) :
  stack e = None → reportBody e = "`" +:+ stringify e +:+ "`".
Proof. intros Hs. unfold reportBody. by rewrite Hs. Qed.

(** In production the URL reaches the editor's [vscode.open] command. *)
Lemma reportIssueForError_prod (e : ErrorLike) :
  reportIssueForError prodEditor e
    = [ExecuteCommand "vscode.open"
         [UriParse (url issueChunks [reportTitle e; reportBody e])]].
Proof. reflexivity. Qed.

(** C9, on an error whose message holds the escaped newline twice:
    the title keeps the second one, only the first is turned into a
    space; the body holds the stack and the URL goes through the
    facade's [openURL]. *)
Theorem reportIssueForError_second_escaped_newline (Current : Editor) :
  message sampleError = Some ("a" +:+ escapedNewline +:+ "b"
                                +:+ escapedNewline +:+ "c")
  ∧ reportTitle sampleError = "Report 1 a b" +:+ escapedNewline +:+ "c"
  ∧ includes escapedNewline (reportTitle sampleError) = true
  ∧ reportIssueForError Current sampleError
      = openURL Current
          (url issueChunks
             ["Report 1 a b" +:+ escapedNewline +:+ "c"; "`trace`"]).
Proof. repeat split; by vm_compute. Qed.

(** C10: an error whose code is [0] (or [NaN]) gets the title of the
    same error without a code, in which the code is rendered as the empty
    string: ["Report "], a space, and the message after the replacement.
    An error whose message is the empty string gets the title of the
    same error without a message, in which the message is rendered as
    the empty string: ["Report "], the code and a space. *)
Theorem reportTitle_falsy_fields (e : ErrorLike) :
  (code e = Some Zero ∨ code e = Some NaN →
   reportTitle e = reportTitle (withCode None e)
   ∧ reportTitle e
     = "Report  "
         +:+ replaceFirst escapedNewline " " (default "" (message e)))
  ∧ (message e = Some "" →
     reportTitle e = reportTitle (withMessage None e)
     ∧ reportTitle e = "Report " +:+ codeOrEmpty e +:+ " ").
Proof.
  split.
  - intros Hcode.
    assert (codeOrEmpty e = "") as Hempty.
    { unfold codeOrEmpty. by destruct Hcode as [-> | ->]. }
    assert (messageOrEmpty e = default "" (message e)) as Hmessage.
    { unfold messageOrEmpty. destruct (message e) as [m|]; [|done].
      by destruct (String.eqb_spec m ""). }
    split.
    { unfold reportTitle. rewrite Hempty. reflexivity. }
    unfold reportTitle. rewrite Hempty, Hmessage.
    change ("Report " +:+ "" +:+ " " +:+ ?m) with ("Report  " +:+ m).
    change escapedNewline with (String backslash "n").
    by rewrite (replaceFirst_lacksChar _ _ _ "Report  ") by done.
  - intros Hmessage.
    assert (messageOrEmpty e = "") as Hempty.
    { unfold messageOrEmpty. by rewrite Hmessage. }
    split.
    { unfold reportTitle. rewrite Hempty. reflexivity. }
    unfold reportTitle. rewrite Hempty.
    change escapedNewline with (String backslash "n").
    rewrite (replaceFirst_lacksChar _ _ _ "Report ") by done.
    rewrite (replaceFirst_lacksChar _ _ _ (codeOrEmpty e))
      by apply lacksChar_codeOrEmpty.
    by rewrite (replaceFirst_lacksChar _ _ _ " ") by done.
Qed.

End EditorFacts.

(** ** The statements on the sample host *)

Abbreviation sampleSwiftFormatPath :=
  (swiftFormatPath sampleJoin sampleAbsolutePath sampleIllTyped).
Abbreviation sampleFallback :=
  (fallbackGlobalSwiftFormatPath sampleAbsolutePath sampleIllTyped).
Abbreviation sampleSearchPaths :=
  (formatConfigSearchPaths sampleAbsolutePath sampleIllTyped).

(** With both builds present the release build is chosen; with the debug
    build alone, the debug build. *)
Lemma swiftFormatPath_local_build_witness :
  sampleSwiftFormatPath bothBuildsHost sampleDocument
    = Return (Some [VStr releaseFile])
  ∧ sampleSwiftFormatPath bothBuildsHost sampleDocument
    ≠ Return (Some [VStr debugFile])
  ∧ sampleSwiftFormatPath debugOnlyHost sampleDocument
    = Return (Some [VStr debugFile]).
Proof.
  destruct (swiftFormatPath_local_build sampleJoin sampleAbsolutePath
              sampleIllTyped bothBuildsHost sampleDocument sampleFolder
              eq_refl) as [Hboth _].
  destruct (Hboth eq_refl eq_refl) as [Hrelease Hnot].
  destruct (swiftFormatPath_local_build sampleJoin sampleAbsolutePath
              sampleIllTyped debugOnlyHost sampleDocument sampleFolder
              eq_refl) as [_ Hdebug].
  split; [exact Hrelease|split].
  - apply Hnot. vm_compute. discriminate.
  - exact (Hdebug eq_refl eq_refl).
Defined.

(** A project without a build, restricted to SwiftPM projects: no command,
    also with a [path] stored. *)
Lemma swiftFormatPath_only_swiftpm_witness :
  sampleSwiftFormatPath
    (noBuildHost {[ onlySwiftPMKey := VBool true ]}) sampleDocument
    = Return None
  ∧ sampleSwiftFormatPath
      (update pathKey (Some (VStr "/opt/bin/swift-format"))
         (noBuildHost {[ onlySwiftPMKey := VBool true ]})) sampleDocument
    = Return None.
Proof.
  destruct (swiftFormatPath_only_swiftpm sampleJoin sampleAbsolutePath
              sampleIllTyped
              (noBuildHost {[ onlySwiftPMKey := VBool true ]})
              sampleDocument) as [Hnow Hany].
  - right. exists sampleFolder. repeat split; reflexivity.
  - vm_compute. reflexivity.
  - split; [exact Hnow|apply Hany].
Defined.

(** A document outside every workspace folder. *)
Lemma swiftFormatPath_no_workspace_witness :
  sampleSwiftFormatPath (noWorkspaceHost ∅) sampleDocument
    = Return (Some [VStr "/usr/bin/env"; VStr "swift-format"])
  ∧ sampleSwiftFormatPath
      (noWorkspaceHost {[ onlySwiftPMKey := VBool true ]}) sampleDocument
    = Return None.
Proof.
  destruct (swiftFormatPath_no_workspace sampleJoin sampleAbsolutePath
              sampleIllTyped (noWorkspaceHost ∅) sampleDocument eq_refl)
    as (_ & Hfalse & _).
  destruct (swiftFormatPath_no_workspace sampleJoin sampleAbsolutePath
              sampleIllTyped
              (noWorkspaceHost {[ onlySwiftPMKey := VBool true ]})
              sampleDocument eq_refl)
    as (_ & _ & Htrue).
  split.
  - destruct Hfalse as [Heq _]; [vm_compute; reflexivity|].
    rewrite Heq. vm_compute. reflexivity.
  - apply Htrue. vm_compute. reflexivity.
Defined.

(** The two well-formed shapes of [path]. *)
Lemma fallback_string_or_strings_witness :
  sampleFallback (storedPathHost (VStr "/opt/bin/swift-format"))
    = Return [VStr "/opt/bin/swift-format"]
  ∧ sampleFallback
      (storedPathHost
         (VArr [VStr "swift-format"; VStr "--configuration";
                VStr "strict"]))
    = Return [VStr "/cwd/swift-format"; VStr "--configuration";
              VStr "strict"].
Proof.
  split.
  - apply (proj1 (fallback_string_or_strings sampleAbsolutePath
                    sampleIllTyped
                    (storedPathHost (VStr "/opt/bin/swift-format")))
             "/opt/bin/swift-format").
    vm_compute. reflexivity.
  - apply (proj2 (fallback_string_or_strings sampleAbsolutePath
                    sampleIllTyped
                    (storedPathHost
                       (VArr [VStr "swift-format"; VStr "--configuration";
                              VStr "strict"])))
             "swift-format" ["--configuration"; "strict"]).
    vm_compute. reflexivity.
Defined.

(** A sequence holding a number is a non-empty sequence: the fallback
    does not answer with the default. *)
Lemma fallback_mixed_sequence_not_default :
  sampleFallback (storedPathHost mixedPath)
    ≠ Return [VStr "/usr/bin/env"; VStr "swift-format"].
Proof. vm_compute. discriminate. Qed.

(** The empty sequence gives the default; the sequence holding a number
    keeps the number; the sequence starting with a number ends in the
    exception of the sample normalizer. *)
Lemma fallback_default_shapes_witness :
  sampleFallback (storedPathHost (VArr []))
    = Return [VStr "/usr/bin/env"; VStr "swift-format"]
  ∧ sampleFallback (storedPathHost mixedPath)
    = Return [VStr "/cwd/swift-format"; VNum 42]
  ∧ sampleFallback (storedPathHost numberFirstPath) = Throw TypeError.
Proof.
  split; [|split].
  - apply (proj1 (fallback_default_shapes sampleAbsolutePath sampleIllTyped
                    (storedPathHost (VArr [])) (VArr []) eq_refl)).
    left. reflexivity.
  - apply (proj1 (proj2 (fallback_default_shapes sampleAbsolutePath
                           sampleIllTyped (storedPathHost mixedPath)
                           mixedPath eq_refl)
                    (VStr "swift-format") [VNum 42] eq_refl)
             "swift-format").
    reflexivity.
  - apply (proj1 (proj2 (proj2 (fallback_default_shapes sampleAbsolutePath
                                  sampleIllTyped
                                  (storedPathHost numberFirstPath)
                                  numberFirstPath eq_refl)
                           (VNum 1) [VStr "--strict"] eq_refl))).
    reflexivity.
Defined.

(** A command found in a project with both builds. *)
Lemma swiftFormatPath_nonempty_witness :
  (1 ≤ length [VStr releaseFile])%nat.
Proof.
  apply (swiftFormatPath_nonempty sampleJoin sampleAbsolutePath
           sampleIllTyped bothBuildsHost sampleDocument).
  vm_compute. reflexivity.
Defined.

(** Resetting a stored [path] against a store that never held one. *)
Lemma reset_then_fallback_witness :
  sampleFallback
    (resetSwiftFormatPath (storedPathHost (VStr "/opt/bin/swift-format")))
  = sampleFallback (noWorkspaceHost ∅).
Proof.
  apply (proj2 (reset_then_fallback sampleAbsolutePath sampleIllTyped
                  (storedPathHost (VStr "/opt/bin/swift-format")))).
  vm_compute. reflexivity.
Defined.

(** Two stored search paths, and none. *)
Lemma formatConfigSearchPaths_normalized_witness :
  sampleSearchPaths
    (sampleHost None []
       {[ configSearchPathsKey
            := VArr [VStr ".swift-format"; VStr "/etc/swift-format"] ]})
    = Return [VStr "/cwd/.swift-format"; VStr "/etc/swift-format"]
  ∧ sampleSearchPaths (noWorkspaceHost ∅)
    = Return [VStr "/cwd/.swift-format"].
Proof.
  split.
  - destruct (proj1 (formatConfigSearchPaths_normalized sampleAbsolutePath
                       sampleIllTyped
                       (sampleHost None []
                          {[ configSearchPathsKey
                               := VArr [VStr ".swift-format";
                                        VStr "/etc/swift-format"] ]}))
                [".swift-format"; "/etc/swift-format"])
      as (result & Hresult & -> & _).
    + vm_compute. reflexivity.
    + exact Hresult.
  - apply (proj2 (formatConfigSearchPaths_normalized sampleAbsolutePath
                    sampleIllTyped (noWorkspaceHost ∅))).
    vm_compute. reflexivity.
Defined.

(** An error with code [0] and an empty message, and an error with code
    [1] and an empty message. *)
Lemma reportTitle_falsy_fields_witness :
  (reportTitle falsyError = reportTitle (withCode None falsyError)
   ∧ reportTitle falsyError = "Report  ")
  ∧ (reportTitle emptyMessageError
       = reportTitle (withMessage None emptyMessageError)
     ∧ reportTitle emptyMessageError = "Report 1 ").
Proof.
  split.
  - apply (proj1 (reportTitle_falsy_fields falsyError)).
    left. reflexivity.
  - apply (proj2 (reportTitle_falsy_fields emptyMessageError)).
    reflexivity.
Defined.

(** ** More on the resolver *)

Section ResolverCases.

Variable join : string → string → string.
Variable absolutePath : string → string.
Variable absolutePathIllTyped : value → completion value.

Abbreviation searchLocalPaths := (searchLocalPaths join absolutePath).
Abbreviation swiftFormatPath :=
  (swiftFormatPath join absolutePath absolutePathIllTyped).
Abbreviation fallbackGlobalSwiftFormatPath :=
  (fallbackGlobalSwiftFormatPath absolutePath absolutePathIllTyped).
Abbreviation hasLocalBuild := (hasLocalBuild join).

(** The loop finds nothing exactly when there is no local build. *)
Lemma searchLocalPaths_none (h : Host) (document : TextDocument) :
  searchLocalPaths h document possibleLocalPaths = None
  ↔ hasLocalBuild h document = false.
Proof.
  unfold hasLocalBuild; simpl.
  destruct (getWorkspaceFolder h (uri document)) as [workspace|]; [|done].
  destruct (existsSync h (join _ ".build/release/swift-format"));
    [done|].
  by destruct (existsSync h (join _ ".build/debug/swift-format")).
Qed.

(** What the loop finds is one of the two candidates under the root. *)
Lemma searchLocalPaths_some (h : Host) (document : TextDocument)
    (cmd : list value) :
  searchLocalPaths h document possibleLocalPaths = Some cmd →
  ∃ workspace,
    getWorkspaceFolder h (uri document) = Some workspace
    ∧ (cmd = [VStr (absolutePath (join (fsPath (folderUri workspace))
                                    ".build/release/swift-format"))]
       ∨ cmd = [VStr (absolutePath (join (fsPath (folderUri workspace))
                                      ".build/debug/swift-format"))]).
Proof.
  simpl.
  destruct (getWorkspaceFolder h (uri document)) as [workspace|]; [|done].
  intros Hcmd. exists workspace. split; [done|].
  destruct (existsSync h (join _ ".build/release/swift-format")).
  { left. by injection Hcmd as <-. }
  destruct (existsSync h (join _ ".build/debug/swift-format")); [|done].
  right. by injection Hcmd as <-.
Qed.

(** The fallback throws only out of [absolutePath], called on a first
    element that is not a string. *)
Lemma fallback_throw_inv (h : Host) (e : exn) :
  fallbackGlobalSwiftFormatPath h = Throw e →
  ∃ first rest,
    get h pathKey (VArr defaultPath) = VArr (first :: rest)
    ∧ isString first = false
    ∧ absolutePathIllTyped first = Throw e.
Proof.
  unfold fallbackGlobalSwiftFormatPath.
  destruct (get h pathKey (VArr defaultPath)) as [| | | |[|first rest]|];
    try done.
  intros Hthrow. exists first, rest. split; [done|].
  destruct first; simpl in *; try done;
    by destruct (absolutePathIllTyped _); simplify_eq/=.
Qed.

Lemma fallback_throw_intro (h : Host) (e : exn) (first : value)
    (rest : list value) :
  get h pathKey (VArr defaultPath) = VArr (first :: rest) →
  isString first = false →
  absolutePathIllTyped first = Throw e →
  fallbackGlobalSwiftFormatPath h = Throw e.
Proof.
  intros Hget Hfirst Hthrow. unfold fallbackGlobalSwiftFormatPath.
  rewrite Hget. destruct first; simpl in *; try done; by rewrite Hthrow.
Qed.

(** X1: [swiftFormatPath] returns [null] exactly when there is no local
    build and the [onlyEnableOnSwiftPMProjects] accessor gives a truthy
    value. *)
Theorem swiftFormatPath_null_iff (h : Host) (document : TextDocument) :
  swiftFormatPath h document = Return None
  ↔ hasLocalBuild h document = false
    ∧ truthy (onlyEnableOnSwiftPMProjects h) = true.
Proof.
  unfold swiftFormatPath, onlyEnableOnSwiftPMProjects.
  rewrite <- searchLocalPaths_none.
  destruct (searchLocalPaths h document possibleLocalPaths) as [cmd|].
  { split; [done|]. by intros [? _]. }
  destruct (truthy _).
  { done. }
  split; [|by intros [_ ?]].
  by destruct (fallbackGlobalSwiftFormatPath h).
Qed.

(** X2: without a local build, the stored [onlyEnableOnSwiftPMProjects]
    is taken by its truthiness, not compared with [true]: a non-empty
    string (the string ["false"] too), a non-zero number, a sequence or
    an object suppress formatting like [true] does, and [null], [0] and
    the empty string let the fallback run like [false] does. *)
Theorem swiftFormatPath_setting_truthiness (h : Host)
    (document : TextDocument) (v : value) :
  hasLocalBuild h document = false →
  getConfiguration h !! onlySwiftPMKey = Some v →
  (v = VBool true ∨ (∃ s, v = VStr s ∧ s ≠ "") ∨ (∃ n, v = VNum n ∧ n ≠ 0)
     ∨ (∃ elems, v = VArr elems) ∨ (∃ props, v = VObj props) →
   swiftFormatPath h document = Return None)
  ∧ (v = VBool false ∨ v = VNull ∨ v = VNum 0 ∨ v = VStr "" →
     swiftFormatPath h document
       = (cmd ← fallbackGlobalSwiftFormatPath h; Return (Some cmd))).
Proof.
  intros Hlocal Hv. apply searchLocalPaths_none in Hlocal.
  unfold swiftFormatPath, get. rewrite Hlocal, Hv. simpl. split.
  - intros [->|[(s & -> & Hs)|[(n & -> & Hn)|[[elems ->]|[props ->]]]]];
      simpl; try done.
    + by destruct (String.eqb_spec s "").
    + by destruct (Z.eqb_spec n 0).
  - by intros [->|[->|[->| ->]]].
Qed.

(** X3: a local build shadows every setting: with one present the
    result is the same one-string command under every configuration
    store, never [null] and never an exception. *)
Theorem swiftFormatPath_local_build_shadows (h : Host)
    (document : TextDocument) :
  hasLocalBuild h document = true →
  ∃ found : string,
    swiftFormatPath h document = Return (Some [VStr found])
    ∧ ∀ cfg : gmap string value,
        swiftFormatPath (withConfiguration cfg h) document
          = Return (Some [VStr found]).
Proof.
  intros Hlocal.
  destruct (searchLocalPaths h document possibleLocalPaths) as [cmd|]
    eqn:Hsearch;
    [|apply searchLocalPaths_none in Hsearch; congruence].
  destruct (searchLocalPaths_some _ _ _ Hsearch)
    as (workspace & _ & [-> | ->]);
    eexists; (split; [|intros cfg]); unfold swiftFormatPath;
    rewrite ?(searchLocalPaths_ext join absolutePath
                (withConfiguration cfg h) h) by done;
    by rewrite Hsearch.
Qed.

(** X4: [swiftFormatPath] throws exactly when there is no local build,
    the [onlyEnableOnSwiftPMProjects] setting is falsy, the [path]
    setting is a non-empty sequence whose first element is not a string,
    and [absolutePath] throws on that element. *)
Theorem swiftFormatPath_throw_iff (h : Host) (document : TextDocument)
    (e : exn) :
  swiftFormatPath h document = Throw e
  ↔ hasLocalBuild h document = false
    ∧ truthy (onlyEnableOnSwiftPMProjects h) = false
    ∧ ∃ first rest,
        get h pathKey (VArr defaultPath) = VArr (first :: rest)
        ∧ isString first = false
        ∧ absolutePathIllTyped first = Throw e.
Proof.
  unfold swiftFormatPath, onlyEnableOnSwiftPMProjects.
  rewrite <- searchLocalPaths_none.
  destruct (searchLocalPaths h document possibleLocalPaths) as [cmd|].
  { split; [done|]. by intros [? _]. }
  destruct (truthy _).
  { split; [done|]. by intros (_ & ? & _). }
  split.
  - intros Hthrow. split; [done|split; [done|]].
    apply fallback_throw_inv.
    by destruct (fallbackGlobalSwiftFormatPath h); simplify_eq/=.
  - intros (_ & _ & first & rest & Hget & Hfirst & Hthrow).
    by rewrite (fallback_throw_intro _ _ _ _ Hget Hfirst Hthrow).
Qed.

(** X5: every command [swiftFormatPath] returns is either one of the two
    local candidates of the document's workspace folder, as a single
    normalized path, or the result of the global fallback. *)
Theorem swiftFormatPath_command_origin (h : Host) (document : TextDocument)
    (cmd : list value) :
  swiftFormatPath h document = Return (Some cmd) →
  (∃ workspace,
     getWorkspaceFolder h (uri document) = Some workspace
     ∧ (cmd = [VStr (absolutePath (join (fsPath (folderUri workspace))
                                     ".build/release/swift-format"))]
        ∨ cmd = [VStr (absolutePath (join (fsPath (folderUri workspace))
                                       ".build/debug/swift-format"))]))
  ∨ (hasLocalBuild h document = false
     ∧ fallbackGlobalSwiftFormatPath h = Return cmd).
Proof.
  unfold swiftFormatPath.
  destruct (searchLocalPaths h document possibleLocalPaths) as [local|]
    eqn:Hsearch.
  - intros [= <-]. left. by apply searchLocalPaths_some.
  - apply searchLocalPaths_none in Hsearch.
    destruct (truthy _); [done|].
    destruct (fallbackGlobalSwiftFormatPath h) as [global|]; [|done].
    intros [= <-]. by right.
Qed.

(** X6: after [resetSwiftFormatPath] the resolver cannot throw; a
    document for which it answered [null] still gets [null], and a
    document without a local build and without the restriction gets the
    default command with its first element normalized. *)
Theorem swiftFormatPath_after_reset (h : Host) (document : TextDocument) :
  (∀ e, swiftFormatPath (resetSwiftFormatPath h) document ≠ Throw e)
  ∧ (swiftFormatPath h document = Return None
     ↔ swiftFormatPath (resetSwiftFormatPath h) document = Return None)
  ∧ (hasLocalBuild h document = false →
     truthy (onlyEnableOnSwiftPMProjects h) = false →
     swiftFormatPath (resetSwiftFormatPath h) document
       = Return (Some [VStr (absolutePath "/usr/bin/env");
                       VStr "swift-format"])).
Proof.
  assert (swiftFormatPath (resetSwiftFormatPath h) document
            = match searchLocalPaths h document possibleLocalPaths with
              | Some cmd => Return (Some cmd)
              | None =>
                  if truthy (onlyEnableOnSwiftPMProjects h)
                  then Return None
                  else Return (Some [VStr (absolutePath "/usr/bin/env");
                                     VStr "swift-format"])
              end) as Hreset.
  { unfold swiftFormatPath, onlyEnableOnSwiftPMProjects,
      resetSwiftFormatPath.
    rewrite (searchLocalPaths_ext join absolutePath
               (update pathKey None h) h) by done.
    rewrite get_update_ne by done.
    unfold fallbackGlobalSwiftFormatPath, get at 2; simpl.
    by rewrite lookup_delete_eq. }
  rewrite Hreset.
  split; [|split].
  - intros e. destruct (searchLocalPaths _ _ _); [done|].
    by destruct (truthy _).
  - unfold swiftFormatPath, onlyEnableOnSwiftPMProjects.
    destruct (searchLocalPaths _ _ _); [done|].
    destruct (truthy _); [done|].
    by destruct (fallbackGlobalSwiftFormatPath h).
  - intros Hnone Hfalsy. apply searchLocalPaths_none in Hnone.
    by rewrite Hnone, Hfalsy.
Qed.

End ResolverCases.

(** ** More on the settings accessors *)

Section SettingsCases.

Variable absolutePath : string → string.
Variable absolutePathIllTyped : value → completion value.

Abbreviation fallbackGlobalSwiftFormatPath :=
  (fallbackGlobalSwiftFormatPath absolutePath absolutePathIllTyped).
Abbreviation formatConfigSearchPaths :=
  (formatConfigSearchPaths absolutePath absolutePathIllTyped).
Abbreviation callAbsolutePath :=
  (callAbsolutePath absolutePath absolutePathIllTyped).

Lemma arrayMap_length {A B} (f : A → completion B) (l : list A)
    (result : list B) :
  arrayMap f l = Return result → length result = length l.
Proof.
  revert result. induction l as [|x rest IH]; simpl; intros result.
  - by intros [= <-].
  - destruct (f x) as [y|]; simpl; [|done].
    destruct (arrayMap f rest) as [ys|]; simpl; [|done].
    intros [= <-]. simpl. by rewrite (IH ys).
Qed.

(** An exception of the callback ends the whole [map]. *)
Lemma arrayMap_throw (strs : list string) (bad : value)
    (rest : list value) (e : exn) :
  callAbsolutePath bad = Throw e →
  arrayMap callAbsolutePath ((VStr <$> strs) ++ bad :: rest) = Throw e.
Proof.
  intros Hbad. induction strs as [|s strs IH].
  - cbn [fmap list_fmap app arrayMap]. by rewrite Hbad.
  - rewrite fmap_cons, <- app_comm_cons.
    cbn [arrayMap Js.bind callAbsolutePath]. by rewrite IH.
Qed.

(** X7: the default of [path] is normalized when it is taken because the
    key is unset, and is not when it is taken because the stored
    sequence is empty; the two results are the same exactly when
    [absolutePath] leaves ["/usr/bin/env"] as it is. *)
Theorem fallback_unset_vs_empty (unset empty : Host) :
  getConfiguration unset !! pathKey = None →
  getConfiguration empty !! pathKey = Some (VArr []) →
  fallbackGlobalSwiftFormatPath unset
    = Return [VStr (absolutePath "/usr/bin/env"); VStr "swift-format"]
  ∧ fallbackGlobalSwiftFormatPath empty
    = Return [VStr "/usr/bin/env"; VStr "swift-format"]
  ∧ (fallbackGlobalSwiftFormatPath unset
       = fallbackGlobalSwiftFormatPath empty
     ↔ absolutePath "/usr/bin/env" = "/usr/bin/env").
Proof.
  intros Hunset Hempty. unfold fallbackGlobalSwiftFormatPath, get.
  rewrite Hunset, Hempty. simpl. split; [done|split; [done|]].
  split; [by intros [= ->]|by intros ->].
Qed.

(** X8: the global fallback throws exactly when the [path] setting is a
    non-empty sequence whose first element is not a string and
    [absolutePath] throws on that element; an unset key, a string, a
    sequence starting with a string and every other shape give a
    command. *)
Theorem fallback_throw_iff (h : Host) (e : exn) :
  fallbackGlobalSwiftFormatPath h = Throw e
  ↔ ∃ first rest,
      getConfiguration h !! pathKey = Some (VArr (first :: rest))
      ∧ isString first = false
      ∧ absolutePathIllTyped first = Throw e.
Proof.
  split.
  - intros Hthrow.
    destruct (fallback_throw_inv _ _ _ _ Hthrow)
      as (first & rest & Hget & Hfirst & Hill).
    exists first, rest. split; [|done].
    unfold get in Hget.
    destruct (getConfiguration h !! pathKey) as [v|]; simpl in Hget.
    + by rewrite Hget.
    + by simplify_eq/=.
  - intros (first & rest & Hget & Hfirst & Hill).
    apply (fallback_throw_intro _ _ _ _ first rest); [|done..].
    unfold get. by rewrite Hget.
Qed.

(** X9: [resetSwiftFormatPath] touches nothing but the [path] key: every
    other key reads as before, as do the boolean accessors and
    [formatConfigSearchPaths], the workspace folders and the files; a
    second reset changes nothing more. *)
Theorem resetSwiftFormatPath_frame (h : Host) :
  (∀ key d, key ≠ pathKey →
     get (resetSwiftFormatPath h) key d = get h key d)
  ∧ isEnabled (resetSwiftFormatPath h) = isEnabled h
  ∧ onlyEnableOnSwiftPMProjects (resetSwiftFormatPath h)
    = onlyEnableOnSwiftPMProjects h
  ∧ onlyEnableWithConfig (resetSwiftFormatPath h) = onlyEnableWithConfig h
  ∧ formatConfigSearchPaths (resetSwiftFormatPath h)
    = formatConfigSearchPaths h
  ∧ getWorkspaceFolder (resetSwiftFormatPath h) = getWorkspaceFolder h
  ∧ existsSync (resetSwiftFormatPath h) = existsSync h
  ∧ resetSwiftFormatPath (resetSwiftFormatPath h) = resetSwiftFormatPath h.
Proof.
  assert (∀ key d, key ≠ pathKey →
            get (resetSwiftFormatPath h) key d = get h key d) as Hframe.
  { intros key d Hne. unfold resetSwiftFormatPath.
    by rewrite get_update_ne. }
  split; [done|].
  unfold isEnabled, onlyEnableOnSwiftPMProjects, onlyEnableWithConfig,
    formatConfigSearchPaths.
  rewrite !Hframe by done. repeat split.
  unfold resetSwiftFormatPath, update, withConfiguration; simpl.
  by rewrite delete_delete_eq.
Qed.

(** X10: when the stored [configSearchPaths] is not a sequence (a single
    string, [null], a boolean, a number, an object), calling [.map] on it
    fails: [formatConfigSearchPaths] throws a [TypeError] and the default
    is not substituted. *)
Theorem formatConfigSearchPaths_not_sequence (h : Host) (v : value) :
  getConfiguration h !! configSearchPathsKey = Some v →
  (∀ elems, v ≠ VArr elems) →
  formatConfigSearchPaths h = Throw TypeError.
Proof.
  intros Hv Hshape. unfold formatConfigSearchPaths, get. rewrite Hv. simpl.
  destruct v; try done. by destruct (Hshape elems).
Qed.

(** X11: whatever [formatConfigSearchPaths] returns has as many elements
    as the sequence it read; in particular a stored empty sequence gives
    an empty result, not the default. *)
Theorem formatConfigSearchPaths_length (h : Host) :
  (getConfiguration h !! configSearchPathsKey = Some (VArr []) →
   formatConfigSearchPaths h = Return [])
  ∧ ∀ result,
      formatConfigSearchPaths h = Return result →
      ∃ elems,
        get h configSearchPathsKey (VArr [VStr ".swift-format"])
          = VArr elems
        ∧ length result = length elems.
Proof.
  unfold formatConfigSearchPaths. split.
  - intros Hv. unfold get. by rewrite Hv.
  - intros result.
    destruct (get h configSearchPathsKey _) as [| | | |elems|]; try done.
    intros Hmap. exists elems. split; [done|].
    by apply arrayMap_length in Hmap.
Qed.

(** X12: one element on which [absolutePath] throws makes
    [formatConfigSearchPaths] throw, whatever stands before and after
    it: no partial list is returned. *)
Theorem formatConfigSearchPaths_throw (h : Host) (strs : list string)
    (bad : value) (rest : list value) (e : exn) :
  getConfiguration h !! configSearchPathsKey
    = Some (VArr ((VStr <$> strs) ++ bad :: rest)) →
  isString bad = false →
  absolutePathIllTyped bad = Throw e →
  formatConfigSearchPaths h = Throw e.
Proof.
  intros Hv Hbad Hill. unfold formatConfigSearchPaths, get.
  rewrite Hv. simpl. apply arrayMap_throw.
  by destruct bad.
Qed.

End SettingsCases.

(** ** More on the issue reporter *)

Section EditorCases.

Variable url : list string → list string → string.
Variable stringify : ErrorLike → string.

Abbreviation reportBody := (reportBody stringify).

(** X13: the replacement in the title only ever reaches the message: the
    title is ["Report "], the code, a space, and the message with its
    leftmost escaped newline, if any, turned into a space. *)
Theorem reportTitle_message_only (e : ErrorLike) :
  reportTitle e
  = "Report " +:+ codeOrEmpty e +:+ " "
      +:+ replaceFirst escapedNewline " " (messageOrEmpty e).
Proof.
  unfold reportTitle.
  change escapedNewline with (String backslash "n").
  rewrite (replaceFirst_lacksChar _ _ _ "Report ") by done.
  rewrite (replaceFirst_lacksChar _ _ _ (codeOrEmpty e))
    by apply lacksChar_codeOrEmpty.
  by rewrite (replaceFirst_lacksChar _ _ _ " ") by done.
Qed.

(** X14: the title holds one escaped newline less than the message (none
    when the message has none), so it still holds one exactly when the
    message holds two or more. *)
Theorem reportTitle_escaped_newlines (e : ErrorLike) :
  countMatches escapedNewline (reportTitle e)
    = pred (countMatches escapedNewline (messageOrEmpty e))
  ∧ (includes escapedNewline (reportTitle e) = true
     ↔ (2 ≤ countMatches escapedNewline (messageOrEmpty e))%nat).
Proof.
  assert (countMatches escapedNewline (reportTitle e)
            = pred (countMatches escapedNewline (messageOrEmpty e)))
    as Hcount.
  { unfold reportTitle.
    change escapedNewline with (String backslash "n").
    rewrite replaceFirst_countMatches by done.
    rewrite (countMatches_lacksChar _ _ "Report ") by done.
    rewrite (countMatches_lacksChar _ _ (codeOrEmpty e))
      by apply lacksChar_codeOrEmpty.
    by rewrite (countMatches_lacksChar _ _ " ") by done. }
  split; [done|]. rewrite includes_countMatches, Hcount. lia.
Qed.

(** X15: the body holds the stack only when there is a non-empty one; a
    missing stack and an empty stack both give the serialized error. *)
Theorem reportBody_cases (e : ErrorLike) :
  (∀ s, stack e = Some s → s ≠ "" → reportBody e = "`" +:+ s +:+ "`")
  ∧ (stack e = None ∨ stack e = Some "" →
     reportBody e = "`" +:+ stringify e +:+ "`").
Proof.
  unfold reportBody. split.
  - intros s -> Hs. by destruct (String.eqb_spec s "").
  - by intros [-> | ->].
Qed.

End EditorCases.

(** ** The further statements on the sample host *)

Abbreviation sampleReportBody := (reportBody sampleStringify).

(** The restriction stored as [true], without a build. *)
Lemma swiftFormatPath_null_iff_witness :
  sampleSwiftFormatPath (restrictedHost (VBool true)) sampleDocument
    = Return None.
Proof.
  apply (proj2 (swiftFormatPath_null_iff sampleJoin sampleAbsolutePath
                  sampleIllTyped (restrictedHost (VBool true))
                  sampleDocument)).
  split; vm_compute; reflexivity.
Defined.

(** The string ["false"] restricts; the number [0] does not. *)
Lemma swiftFormatPath_setting_truthiness_witness :
  sampleSwiftFormatPath (restrictedHost (VStr "false")) sampleDocument
    = Return None
  ∧ sampleSwiftFormatPath (restrictedHost (VNum 0)) sampleDocument
    = Return (Some [VStr "/usr/bin/env"; VStr "swift-format"]).
Proof.
  split.
  - apply (proj1 (swiftFormatPath_setting_truthiness sampleJoin
                    sampleAbsolutePath sampleIllTyped
                    (restrictedHost (VStr "false")) sampleDocument
                    (VStr "false") eq_refl eq_refl)).
    right. left. exists "false". split; [reflexivity|discriminate].
  - rewrite (proj2 (swiftFormatPath_setting_truthiness sampleJoin
                      sampleAbsolutePath sampleIllTyped
                      (restrictedHost (VNum 0)) sampleDocument
                      (VNum 0) eq_refl eq_refl)).
    + vm_compute. reflexivity.
    + right. right. left. reflexivity.
Defined.

(** A debug build under a store that restricts and holds a [path] the
    fallback would throw on. *)
Lemma swiftFormatPath_local_build_shadows_witness :
  sampleSwiftFormatPath
    (withConfiguration shadowedSettings debugOnlyHost) sampleDocument
  = Return (Some [VStr debugFile]).
Proof.
  destruct (swiftFormatPath_local_build_shadows sampleJoin
              sampleAbsolutePath sampleIllTyped debugOnlyHost
              sampleDocument eq_refl) as (found & Hnow & Hany).
  vm_compute in Hnow. injection Hnow as <-.
  apply (Hany shadowedSettings).
Defined.

(** A [path] starting with a number, outside every workspace folder. *)
Lemma swiftFormatPath_throw_iff_witness :
  sampleSwiftFormatPath
    (noWorkspaceHost {[ pathKey := numberFirstPath ]}) sampleDocument
  = Throw TypeError.
Proof.
  apply (proj2 (swiftFormatPath_throw_iff sampleJoin sampleAbsolutePath
                  sampleIllTyped
                  (noWorkspaceHost {[ pathKey := numberFirstPath ]})
                  sampleDocument TypeError)).
  split; [reflexivity|split; [reflexivity|]].
  exists (VNum 1), [VStr "--strict"]. repeat split; reflexivity.
Defined.

(** The command of a project with both builds is its release build. *)
Lemma swiftFormatPath_command_origin_witness :
  (∃ workspace,
     getWorkspaceFolder bothBuildsHost (uri sampleDocument) = Some workspace
     ∧ ([VStr releaseFile]
          = [VStr (sampleAbsolutePath
                     (sampleJoin (fsPath (folderUri workspace))
                        ".build/release/swift-format"))]
        ∨ [VStr releaseFile]
          = [VStr (sampleAbsolutePath
                     (sampleJoin (fsPath (folderUri workspace))
                        ".build/debug/swift-format"))]))
  ∨ (hasLocalBuild sampleJoin bothBuildsHost sampleDocument = false
     ∧ sampleFallback bothBuildsHost = Return [VStr releaseFile]).
Proof.
  apply (swiftFormatPath_command_origin sampleJoin sampleAbsolutePath
           sampleIllTyped bothBuildsHost sampleDocument).
  vm_compute. reflexivity.
Defined.

(** Resetting a [path] the fallback throws on. *)
Lemma swiftFormatPath_after_reset_witness :
  sampleSwiftFormatPath
    (resetSwiftFormatPath (noWorkspaceHost {[ pathKey := numberFirstPath ]}))
    sampleDocument
  = Return (Some [VStr "/usr/bin/env"; VStr "swift-format"]).
Proof.
  apply (proj2 (proj2 (swiftFormatPath_after_reset sampleJoin
                         sampleAbsolutePath sampleIllTyped
                         (noWorkspaceHost {[ pathKey := numberFirstPath ]})
                         sampleDocument)));
    vm_compute; reflexivity.
Defined.

(** The sample normalizer keeps ["/usr/bin/env"]: both defaults agree. *)
Lemma fallback_unset_vs_empty_witness :
  sampleFallback (noWorkspaceHost ∅)
    = sampleFallback (storedPathHost (VArr [])).
Proof.
  destruct (fallback_unset_vs_empty sampleAbsolutePath sampleIllTyped
              (noWorkspaceHost ∅) (storedPathHost (VArr [])))
    as (_ & _ & Hsame).
  - vm_compute. reflexivity.
  - vm_compute. reflexivity.
  - apply Hsame. vm_compute. reflexivity.
Defined.

Lemma fallback_throw_iff_witness :
  sampleFallback (storedPathHost numberFirstPath) = Throw TypeError.
Proof.
  apply (proj2 (fallback_throw_iff sampleAbsolutePath sampleIllTyped
                  (storedPathHost numberFirstPath) TypeError)).
  exists (VNum 1), [VStr "--strict"]. repeat split; reflexivity.
Defined.

(** A reset under a restriction: the restriction is still read. *)
Lemma resetSwiftFormatPath_frame_witness :
  get (resetSwiftFormatPath
         (withConfiguration shadowedSettings debugOnlyHost))
    onlySwiftPMKey (VBool false)
  = VBool true.
Proof.
  rewrite (proj1 (resetSwiftFormatPath_frame sampleAbsolutePath
                    sampleIllTyped
                    (withConfiguration shadowedSettings debugOnlyHost))
             onlySwiftPMKey (VBool false)).
  - vm_compute. reflexivity.
  - discriminate.
Defined.

(** A single string where a sequence is expected. *)
Lemma formatConfigSearchPaths_not_sequence_witness :
  sampleSearchPaths (searchPathsHost (VStr ".swift-format"))
    = Throw TypeError.
Proof.
  apply (formatConfigSearchPaths_not_sequence sampleAbsolutePath
           sampleIllTyped (searchPathsHost (VStr ".swift-format"))
           (VStr ".swift-format")).
  - vm_compute. reflexivity.
  - discriminate.
Defined.

Lemma formatConfigSearchPaths_length_witness :
  sampleSearchPaths (searchPathsHost (VArr [])) = Return []
  ∧ ∃ elems,
      get (searchPathsHost (VArr [VStr "a"; VStr "/b"]))
        configSearchPathsKey (VArr [VStr ".swift-format"])
        = VArr elems
      ∧ length [VStr "/cwd/a"; VStr "/b"] = length elems.
Proof.
  split.
  - apply (proj1 (formatConfigSearchPaths_length sampleAbsolutePath
                    sampleIllTyped (searchPathsHost (VArr [])))).
    vm_compute. reflexivity.
  - apply (proj2 (formatConfigSearchPaths_length sampleAbsolutePath
                    sampleIllTyped
                    (searchPathsHost (VArr [VStr "a"; VStr "/b"])))).
    vm_compute. reflexivity.
Defined.

(** A number between two strings. *)
Lemma formatConfigSearchPaths_throw_witness :
  sampleSearchPaths
    (searchPathsHost (VArr [VStr ".swift-format"; VNum 7; VStr "x"]))
  = Throw TypeError.
Proof.
  apply (formatConfigSearchPaths_throw sampleAbsolutePath sampleIllTyped
           (searchPathsHost
              (VArr [VStr ".swift-format"; VNum 7; VStr "x"]))
           [".swift-format"] (VNum 7) [VStr "x"] TypeError);
    vm_compute; reflexivity.
Defined.

(** The sample error holds two escaped newlines. *)
Lemma reportTitle_escaped_newlines_witness :
  includes escapedNewline (reportTitle sampleError) = true.
Proof.
  apply (proj2 (reportTitle_escaped_newlines sampleError)).
  vm_compute. lia.
Defined.

(** A stack, and none. *)
Lemma reportBody_cases_witness :
  sampleReportBody sampleError = "`trace`"
  ∧ sampleReportBody falsyError = "`{}`".
Proof.
  split.
  - apply (proj1 (reportBody_cases sampleStringify sampleError) "trace");
      [reflexivity|discriminate].
  - apply (proj2 (reportBody_cases sampleStringify falsyError)).
    left. reflexivity.
Defined.
